(** * macos_shim.c: the CGEventTap shim, embedded and verified

  The C file forwards to the CoreGraphics / CoreFoundation frameworks.  Each
  C function is embedded as a computation in a state monad over a [World]
  that holds
  - the state of the frameworks (abstract: any [Framework] instance),
  - the trace of framework calls made so far, in order,
  - the program's memory cells of type [CGPoint],
  - what has been sent to [printf].

  The frameworks are not part of the repository: they are a parameter
  ([Framework]), and so are the numeric values of the event-type constants
  ([EventTypes]), which come from the system headers. *)

From Stdlib Require Import ZArith String List Lia Bool.
From Stdlib Require Import Floats.SpecFloat.
From stdpp Require Import gmap.

Open Scope Z_scope.

(** ** C integer types *)

Module C.

(** Pointers are addresses; [NULL] is address zero. *)
Definition ptr := Z.
Definition NULL : ptr := 0.

(** [if (p)] on a pointer. *)
Definition is_set (p : ptr) : bool := negb (p =? NULL).

(** [double]: an IEEE value; the shim only moves such values around. *)
Definition double := spec_float.

(** Conversion to [int] (32 bits, two's complement). *)
Definition to_int (z : Z) : Z := (z + 2 ^ 31) mod 2 ^ 32 - 2 ^ 31.

(** Conversion to [uint16_t] and to [uint64_t]. *)
Definition to_uint16 (z : Z) : Z := z mod 2 ^ 16.
Definition to_uint64 (z : Z) : Z := z mod 2 ^ 64.

(** [a << k] and [a | b] at type [int]. The shift is only defined by C for
    [0 <= k < 32] and a result that fits; outside it the model wraps. *)
Definition int_shl (a k : Z) : Z := to_int (Z.shiftl a k).
Definition int_or (a b : Z) : Z := Z.lor a b.

(** The newline character of the C string literals. *)
Definition nl : string := String (Ascii.ascii_of_nat 10) EmptyString.

End C.
Export C.

(** ** The framework interface the shim calls into *)

Module SDK.

(** Enumerations of the system headers; the shim uses one member of each. *)
Inductive CGEventTapLocation :=
  kCGHIDEventTap | kCGSessionEventTap | kCGAnnotatedSessionEventTap.
Inductive CGEventTapPlacement := kCGHeadInsertEventTap | kCGTailAppendEventTap.
Inductive CGEventTapOptions := kCGEventTapOptionDefault | kCGEventTapOptionListenOnly.
Inductive CFRunLoopMode := kCFRunLoopDefaultMode | kCFRunLoopCommonModes.
Inductive CFAllocatorRef := kCFAllocatorDefault | kCFAllocatorSystemDefault.
Inductive CGEventField :=
  kCGMouseEventNumber | kCGKeyboardEventAutorepeat | kCGKeyboardEventKeycode.

(** [CGPoint]: two doubles. *)
Record CGPoint := mkPoint { x : double; y : double }.

(** [CGEventType] is a 32-bit unsigned integer; [CGEventMask] a 64-bit one. *)
Definition CGEventType := Z.
Definition CGEventMask := Z.

(** One constructor per framework function the shim calls, with its
    arguments in the order of the C prototype. *)
Inductive os_call :=
| CGEventTapCreate (tap : CGEventTapLocation) (place : CGEventTapPlacement)
    (options : CGEventTapOptions) (eventsOfInterest : CGEventMask)
    (callback : ptr) (userInfo : ptr)
| CGEventTapEnable (tap : ptr) (enable : bool)
| CFMachPortCreateRunLoopSource (allocator : CFAllocatorRef) (port : ptr) (order : Z)
| CFRunLoopGetCurrent
| CFRunLoopAddSource (rl : ptr) (source : ptr) (mode : CFRunLoopMode)
| CFRelease (cf : ptr)
| CFRunLoopRunInMode (mode : CFRunLoopMode) (seconds : double)
    (returnAfterSourceHandled : bool)
| CGEventGetIntegerValueField (event : ptr) (field : CGEventField)
| CGEventCreate (source : ptr)
| CGEventGetLocation (event : ptr).

(** What each call returns: a handle, nothing, the run-loop result code
    (a 32-bit signed integer), a 64-bit signed field value, or a point. *)
Definition ret_ty (c : os_call) : Type :=
  match c with
  | CGEventTapCreate _ _ _ _ _ _ => ptr
  | CGEventTapEnable _ _ => unit
  | CFMachPortCreateRunLoopSource _ _ _ => ptr
  | CFRunLoopGetCurrent => ptr
  | CFRunLoopAddSource _ _ _ => unit
  | CFRelease _ => unit
  | CFRunLoopRunInMode _ _ _ => Z
  | CGEventGetIntegerValueField _ _ => Z
  | CGEventCreate _ => ptr
  | CGEventGetLocation _ => CGPoint
  end.

(** The frameworks: a state and, for each call, a result and a new state.
    The shim is verified against every instance. *)
Class Framework := {
  OSState : Type;
  perform : forall c : os_call, OSState -> ret_ty c * OSState
}.

(** The numeric values of the event-type constants the shim names. *)
Class EventTypes := {
  kCGEventLeftMouseDown : CGEventType;
  kCGEventLeftMouseUp : CGEventType;
  kCGEventRightMouseDown : CGEventType;
  kCGEventRightMouseUp : CGEventType;
  kCGEventMouseMoved : CGEventType;
  kCGEventKeyDown : CGEventType;
  kCGEventKeyUp : CGEventType;
  kCGEventScrollWheel : CGEventType
}.

(** The eight constants, in the order the shim's mask lists them. *)
Definition tapped_types `{EventTypes} : list CGEventType :=
  [ kCGEventKeyDown; kCGEventKeyUp;
    kCGEventLeftMouseDown; kCGEventLeftMouseUp;
    kCGEventRightMouseDown; kCGEventRightMouseUp;
    kCGEventMouseMoved; kCGEventScrollWheel ].

(** [1 << k] is defined at type [int] and non-negative: [0 <= k < 31]. *)
Definition shift_ok (k : Z) : bool := (0 <=? k) && (k <? 31).

(** Enumeration constants of one [enum] that name different event types
    have different values. *)
Fixpoint distinct (l : list Z) : bool :=
  match l with
  | [] => true
  | k :: r => forallb (fun j => negb (k =? j)) r && distinct r
  end.

End SDK.
Export SDK.

(** ** The world and the monad of the shim *)

(** One [printf] call: the format string and the variadic arguments. *)
Inductive printf_arg := ArgInt (z : Z) | ArgDouble (d : double).

Record printf_call := Printf { fmt : string; args : list printf_arg }.

Record World `{Framework} := mkWorld {
  os : OSState;
  trace : list os_call;
  heap : gmap Z CGPoint;
  stdout : list printf_call
}.

Arguments mkWorld {_} _ _ _ _.

Definition Shim `{Framework} (A : Type) : Type := World -> A * World.

Definition ret `{Framework} {A} (a : A) : Shim A := fun w => (a, w).

Definition bind `{Framework} {A B} (m : Shim A) (k : A -> Shim B) : Shim B :=
  fun w => let (a, w') := m w in k a w'.

Notation "x <- m ;; k" := (bind m (fun x => k))
  (at level 100, m at next level, right associativity).
Notation "m ;; k" := (bind m (fun _ => k))
  (at level 100, right associativity).

(** A call into the frameworks: logged in the trace and answered by the
    framework, which moves to a new state of its own. The frameworks do not
    write to the cells of [heap] or to the output: none of the calls the
    shim makes is handed a pointer into the program's memory. *)
Definition call `{Framework} (c : os_call) : Shim (ret_ty c) :=
  fun w =>
    let p := perform c (os w) in
    (fst p, {| os := snd p; trace := trace w ++ [c]; heap := heap w;
               stdout := stdout w |}).

(** [*p = v] for a [CGPoint *p]. *)
Definition store `{Framework} (p : ptr) (v : CGPoint) : Shim unit :=
  fun w =>
    (tt, {| os := os w; trace := trace w; heap := <[p := v]> (heap w);
            stdout := stdout w |}).

Definition printf `{Framework} (f : string) (a : list printf_arg) : Shim unit :=
  fun w =>
    (tt, {| os := os w; trace := trace w; heap := heap w;
            stdout := stdout w ++ [Printf f a] |}).

(** ** The functions of macos_shim.c *)

Section Shim.
Context `{Framework} `{EventTypes}.

(** The [eventMask] local of [InitializeEventTap]: eight [int] shifts,
    or-ed left to right, converted to [CGEventMask]. *)
Definition eventMask : CGEventMask :=
  to_uint64
    (int_or (int_or (int_or (int_or (int_or (int_or (int_or
       (int_shl 1 kCGEventKeyDown) (int_shl 1 kCGEventKeyUp))
       (int_shl 1 kCGEventLeftMouseDown)) (int_shl 1 kCGEventLeftMouseUp))
       (int_shl 1 kCGEventRightMouseDown)) (int_shl 1 kCGEventRightMouseUp))
       (int_shl 1 kCGEventMouseMoved)) (int_shl 1 kCGEventScrollWheel)).

Definition InitializeEventTap (callback userData : ptr) : Shim ptr :=
  eventTap <- call (CGEventTapCreate kCGSessionEventTap kCGHeadInsertEventTap
                      kCGEventTapOptionDefault eventMask callback userData) ;;
  if negb (is_set eventTap) then
    (printf ("Failed to create event tap." ++ nl) [] ;;
     ret NULL)
  else ret eventTap.

Definition EnableEventTap (tap : ptr) (enable : bool) : Shim unit :=
  if is_set tap then call (CGEventTapEnable tap enable) else ret tt.

Definition AddEventTapToCurrentRunLoop (tap : ptr) : Shim unit :=
  if is_set tap then
    runLoopSource <- call (CFMachPortCreateRunLoopSource kCFAllocatorDefault tap 0) ;;
    if is_set runLoopSource then
      (rl <- call CFRunLoopGetCurrent ;;
       call (CFRunLoopAddSource rl runLoopSource kCFRunLoopDefaultMode) ;;
       call (CFRelease runLoopSource))
    else ret tt
  else ret tt.

Definition CleanupEventTap (tap : ptr) : Shim unit :=
  if is_set tap then call (CFRelease tap) else ret tt.

Definition RunCurrentRunLoopWithTimeout (seconds : double) : Shim Z :=
  call (CFRunLoopRunInMode kCFRunLoopDefaultMode seconds true).

Definition GetKeyCodeFromEvent (event : ptr) : Shim Z :=
  if is_set event then
    v <- call (CGEventGetIntegerValueField event kCGKeyboardEventKeycode) ;;
    ret (to_uint16 v)
  else ret 0.

Definition GetCurrentMousePos (point : ptr) : Shim Z :=
  if negb (is_set point) then ret (-1)
  else
    event <- call (CGEventCreate NULL) ;;
    if is_set event then
      (loc <- call (CGEventGetLocation event) ;;
       store point loc ;;
       call (CFRelease event) ;;
       ret 0)
    else ret (-1).

Definition PrintEventInfo (type : CGEventType) (event : ptr) : Shim unit :=
  printf ("Event type: %d" ++ nl) [ArgInt (to_int type)] ;;
  if (type =? kCGEventKeyDown) || (type =? kCGEventKeyUp) then
    (v <- call (CGEventGetIntegerValueField event kCGKeyboardEventKeycode) ;;
     let keyCode := to_uint16 v in
     printf ("Key code: %d" ++ nl) [ArgInt (to_int keyCode)])
  else if (type =? kCGEventMouseMoved)
          || (type =? kCGEventLeftMouseDown) || (type =? kCGEventLeftMouseUp)
          || (type =? kCGEventRightMouseDown) || (type =? kCGEventRightMouseUp) then
    (location <- call (CGEventGetLocation event) ;;
     printf ("Mouse location: (%f, %f)" ++ nl)
       [ArgDouble (x location); ArgDouble (y location)])
  else ret tt.

End Shim.

(** What [PrintEventInfo] and [InitializeEventTap] add to the output is
    recognised by its format string. *)
Definition prints (f : string) (out : list printf_call) : bool :=
  existsb (fun c => String.eqb (fmt c) f) out.

(** ** A concrete framework and concrete constants

    A small simulation of the frameworks, to run the shim on: handles are
    handed out from a counter, event taps can only be created by a trusted
    process, every tap remembers its enable flag, and every event has a
    key code. *)

Module Sim.

Record state := mkState {
  trusted : bool;
  can_post : bool;
  next : ptr;
  enabled : list (ptr * bool);
  keycodes : list (ptr * Z);
  cursor : CGPoint
}.

Fixpoint lookup {A} (d : A) (k : ptr) (l : list (ptr * A)) : A :=
  match l with
  | [] => d
  | (k', a) :: r => if k =? k' then a else lookup d k r
  end.

Definition tap_enabled (s : state) (tap : ptr) : bool := lookup false tap (enabled s).

Definition fresh (s : state) : ptr * state :=
  (next s, mkState (trusted s) (can_post s) (next s + 1) (enabled s) (keycodes s)
             (cursor s)).

Definition step (c : os_call) (s : state) : ret_ty c * state :=
  match c return ret_ty c * state with
  | CGEventTapCreate _ _ _ _ _ _ => if trusted s then fresh s else (NULL, s)
  | CGEventTapEnable tap enable =>
      (tt, mkState (trusted s) (can_post s) (next s) ((tap, enable) :: enabled s)
             (keycodes s) (cursor s))
  | CFMachPortCreateRunLoopSource _ _ _ => fresh s
  | CFRunLoopGetCurrent => (1, s)
  | CFRunLoopAddSource _ _ _ => (tt, s)
  | CFRelease _ => (tt, s)
  | CFRunLoopRunInMode _ _ _ => (3, s)
  | CGEventGetIntegerValueField event field =>
      (match field with
       | kCGKeyboardEventKeycode => lookup 0 event (keycodes s)
       | _ => 0
       end, s)
  | CGEventCreate _ => if can_post s then fresh s else (NULL, s)
  | CGEventGetLocation _ => (cursor s, s)
  end.

Definition framework : Framework := {| OSState := state; perform := step |}.

(** A point at (3.0, 0.5). *)
Definition at_3_half : CGPoint :=
  mkPoint (S754_finite false 3 0) (S754_finite false 1 (-1)).

(** Event 7 carries a field value wider than 16 bits, event 8 key code 0. *)
Definition booted (trust post : bool) : state :=
  mkState trust post 4096 [] [(7, 70000); (8, 0)] at_3_half.

Definition world (trust post : bool) : @World framework :=
  mkWorld (booted trust post : @OSState framework) [] ∅ [].

(** The event-type values of the CoreGraphics header [CGEventTypes.h]. *)
Definition apple : EventTypes := {|
  kCGEventLeftMouseDown := 1;
  kCGEventLeftMouseUp := 2;
  kCGEventRightMouseDown := 3;
  kCGEventRightMouseUp := 4;
  kCGEventMouseMoved := 5;
  kCGEventKeyDown := 10;
  kCGEventKeyUp := 11;
  kCGEventScrollWheel := 22
|}.

End Sim.

(** A framework that cannot create anything: every function that returns a
    handle returns NULL. It has no state. *)

Module Refusing.

Definition step (c : os_call) (s : unit) : ret_ty c * unit :=
  match c return ret_ty c * unit with
  | CGEventTapCreate _ _ _ _ _ _ => (NULL, tt)
  | CGEventTapEnable _ _ => (tt, tt)
  | CFMachPortCreateRunLoopSource _ _ _ => (NULL, tt)
  | CFRunLoopGetCurrent => (NULL, tt)
  | CFRunLoopAddSource _ _ _ => (tt, tt)
  | CFRelease _ => (tt, tt)
  | CFRunLoopRunInMode _ _ _ => (1, tt)
  | CGEventGetIntegerValueField _ _ => (0, tt)
  | CGEventCreate _ => (NULL, tt)
  | CGEventGetLocation _ => (mkPoint (S754_zero false) (S754_zero false), tt)
  end.

Definition framework : Framework := {| OSState := unit; perform := step |}.

Definition world : @World framework := mkWorld (tt : @OSState framework) [] ∅ [].

End Refusing.

(** ** Reading a trace *)

(** The framework calls made between an earlier world and a later one. *)
Definition issued `{Framework} (w w' : World) : list os_call :=
  drop (length (trace w)) (trace w').

(** [CFRelease] of NULL, which CoreFoundation does not accept. *)
Definition releases_null (c : os_call) : bool :=
  match c with
  | CFRelease cf => cf =? NULL
  | _ => false
  end.

(** An event accessor applied to a NULL event. *)
Definition reads_null_event (c : os_call) : bool :=
  match c with
  | CGEventGetIntegerValueField event _ => event =? NULL
  | CGEventGetLocation event => event =? NULL
  | _ => false
  end.

(** ** Running the shim on the simulation *)

Example run_GetKeyCodeFromEvent :
  fst (@GetKeyCodeFromEvent Sim.framework 7 (Sim.world true true)) = 4464.
Proof. reflexivity. Qed.

Example run_eventMask : @eventMask Sim.apple = 4197438.
Proof. reflexivity. Qed.

Example run_InitializeEventTap_untrusted :
  @InitializeEventTap Sim.framework Sim.apple 500 600 (Sim.world false true)
  = (NULL,
     mkWorld (Sim.booted false true : @OSState Sim.framework)
       [CGEventTapCreate kCGSessionEventTap kCGHeadInsertEventTap
          kCGEventTapOptionDefault 4197438 500 600]
       ∅ [Printf ("Failed to create event tap." ++ nl) []]).
Proof. reflexivity. Qed.

Example run_GetCurrentMousePos :
  fst (@GetCurrentMousePos Sim.framework 64 (Sim.world true true)) = 0
  /\ heap (snd (@GetCurrentMousePos Sim.framework 64 (Sim.world true true))) !! 64
     = Some Sim.at_3_half.
Proof. split; reflexivity. Qed.

(** ** Facts about the C conversions *)

Lemma is_set_NULL : is_set NULL = false.
Proof. reflexivity. Qed.

Lemma is_set_true (p : ptr) : p <> NULL -> is_set p = true.
Proof.
  intros Hp. unfold is_set. apply negb_true_iff. now apply Z.eqb_neq.
Qed.

Lemma is_set_false (p : ptr) : is_set p = false -> p = NULL.
Proof.
  unfold is_set. intros Hp. apply negb_false_iff in Hp. now apply Z.eqb_eq.
Qed.

Lemma shift_ok_range (k : Z) : shift_ok k = true -> 0 <= k < 31.
Proof.
  unfold shift_ok. intros Hk. apply andb_true_iff in Hk as [Hlo Hhi].
  apply Z.leb_le in Hlo. apply Z.ltb_lt in Hhi. lia.
Qed.

(** Inside the defined range, the [int] shift of 1 is the power of two. *)
Lemma int_shl_1 (k : Z) : shift_ok k = true -> int_shl 1 k = 2 ^ k.
Proof.
  intros Hk. apply shift_ok_range in Hk.
  unfold int_shl, to_int. rewrite Z.shiftl_1_l.
  assert (Hle : 2 ^ k <= 2 ^ 30) by (apply Z.pow_le_mono_r; lia).
  assert (Hpos : 0 < 2 ^ k) by (apply Z.pow_pos_nonneg; lia).
  change (2 ^ 30) with 1073741824 in Hle.
  change (2 ^ 31) with 2147483648. change (2 ^ 32) with 4294967296.
  rewrite Z.mod_small; lia.
Qed.

Lemma to_uint16_range (v : Z) : 0 <= to_uint16 v < 65536.
Proof. unfold to_uint16. change (2 ^ 16) with 65536. apply Z.mod_pos_bound. lia. Qed.

Lemma to_uint16_land (v : Z) : to_uint16 v = Z.land v 65535.
Proof.
  unfold to_uint16. change 65535 with (Z.ones 16). now rewrite Z.land_ones.
Qed.

Lemma to_int_small (v : Z) : - 2 ^ 31 <= v < 2 ^ 31 -> to_int v = v.
Proof.
  unfold to_int. change (2 ^ 31) with 2147483648. change (2 ^ 32) with 4294967296.
  intros Hv. rewrite Z.mod_small; lia.
Qed.

Lemma to_int_nonneg_small (v : Z) : 0 <= v < 2 ^ 31 -> to_int v = v.
Proof.
  intros Hv. apply to_int_small. change (2 ^ 31) with 2147483648 in *. lia.
Qed.

(** [(int)keyCode] for a 16-bit [keyCode] is the same number. *)
Lemma to_int_to_uint16 (v : Z) : to_int (to_uint16 v) = to_uint16 v.
Proof.
  apply to_int_nonneg_small. pose proof (to_uint16_range v) as Hv.
  change (2 ^ 31) with 2147483648. lia.
Qed.

(** ** The event mask, bit by bit *)

Section Mask.
Context `{EventTypes}.

Lemma pow2_bit (k i : Z) : 0 <= k -> Z.testbit (2 ^ k) i = (i =? k).
Proof. intros Hk. rewrite Z.pow2_bits_eqb by assumption. apply Z.eqb_sym. Qed.

Lemma lor_pow2_bits (l : list Z) (i : Z) :
  forallb shift_ok l = true ->
  Z.testbit (fold_right Z.lor 0 (map (fun k => 2 ^ k) l)) i = existsb (Z.eqb i) l.
Proof.
  induction l as [|k l IH]; simpl; intros Hl.
  - apply Z.bits_0.
  - apply andb_true_iff in Hl as [Hk Hl]. apply shift_ok_range in Hk.
    rewrite Z.lor_spec, pow2_bit, IH by (assumption || lia). reflexivity.
Qed.

Lemma existsb_out_of_range (l : list Z) (i : Z) :
  forallb shift_ok l = true -> ~ (0 <= i < 31) -> existsb (Z.eqb i) l = false.
Proof.
  induction l as [|k l IH]; simpl; intros Hl Hi; [reflexivity|].
  apply andb_true_iff in Hl as [Hk Hl]. apply shift_ok_range in Hk.
  rewrite IH by assumption. apply orb_false_iff. split; [|reflexivity].
  apply Z.eqb_neq. lia.
Qed.

(** The mask the shim computes is the or of the eight powers of two. *)
Lemma eventMask_fold :
  forallb shift_ok tapped_types = true ->
  eventMask = fold_right Z.lor 0 (map (fun k => 2 ^ k) tapped_types).
Proof.
  intros Hok. pose proof Hok as Hall. simpl in Hall.
  repeat (apply andb_true_iff in Hall as [? Hall]).
  unfold eventMask, int_or. rewrite !int_shl_1 by assumption.
  apply Z.bits_inj'. intros i Hi. unfold to_uint64.
  destruct (Z_lt_dec i 64) as [Hlt|Hge].
  - rewrite Z.mod_pow2_bits_low by lia. simpl.
    rewrite !Z.lor_spec, Z.bits_0, orb_false_r, !orb_assoc. reflexivity.
  - rewrite Z.mod_pow2_bits_high by lia.
    rewrite lor_pow2_bits by assumption.
    symmetry. apply existsb_out_of_range; [assumption | lia].
Qed.

Lemma eventMask_bits (i : Z) :
  forallb shift_ok tapped_types = true ->
  Z.testbit eventMask i = true <-> In i tapped_types.
Proof.
  intros Hok. rewrite eventMask_fold, lor_pow2_bits by assumption.
  rewrite existsb_exists. split.
  - intros [k [Hin Hk]]. apply Z.eqb_eq in Hk. now subst.
  - intros Hin. exists i. split; [assumption | apply Z.eqb_refl].
Qed.

End Mask.

(** ** The claims *)

(** C1. With a NULL tap handle, [EnableEventTap], [AddEventTapToCurrentRunLoop]
    and [CleanupEventTap] each return at the null check: the world after the
    call is the world before it, so no framework call was made (the trace is
    the same), and neither the frameworks' state, nor memory, nor the output
    changed. *)
Theorem null_tap_noop `{Framework} (w : World) (enable : bool) :
  EnableEventTap NULL enable w = (tt, w)
  /\ AddEventTapToCurrentRunLoop NULL w = (tt, w)
  /\ CleanupEventTap NULL w = (tt, w).
Proof. repeat split. Qed.

(** C2. [InitializeEventTap] returns NULL exactly when [CGEventTapCreate]
    returned a null tap, and otherwise returns the handle [CGEventTapCreate]
    produced, unchanged. *)
Theorem InitializeEventTap_returns_created `{Framework} `{EventTypes}
    (callback userData : ptr) (w : World) :
  let created :=
    fst (perform (CGEventTapCreate kCGSessionEventTap kCGHeadInsertEventTap
                    kCGEventTapOptionDefault eventMask callback userData) (os w)) in
  let r := fst (InitializeEventTap callback userData w) in
  (r = NULL <-> created = NULL) /\ (created <> NULL -> r = created).
Proof.
  cbv zeta. unfold InitializeEventTap, bind, call. cbn [fst snd].
  set (created := fst (perform _ (os w))).
  destruct (is_set created) eqn:Hset; cbn [negb fst].
  - split; [reflexivity | intros _; reflexivity].
  - apply is_set_false in Hset. unfold printf, ret. cbn [fst]. split; [tauto | congruence].
Qed.

(** C3. Every call of [InitializeEventTap] makes exactly one framework call:
    [CGEventTapCreate] at the session level, inserted at the head, with the
    default options, with the callback and the user data it was given, and
    with a mask whose set bits are exactly the eight event types key down,
    key up, left/right mouse down/up, mouse moved and scroll wheel (the
    constants being valid shift amounts for an [int]). *)
Theorem InitializeEventTap_request `{Framework} `{EventTypes}
    (callback userData : ptr) (w : World)
    (Hok : forallb shift_ok tapped_types = true) :
  trace (snd (InitializeEventTap callback userData w))
  = trace w ++ [CGEventTapCreate kCGSessionEventTap kCGHeadInsertEventTap
                  kCGEventTapOptionDefault eventMask callback userData]
  /\ eventMask
     = Z.lor (2 ^ kCGEventKeyDown) (Z.lor (2 ^ kCGEventKeyUp)
        (Z.lor (2 ^ kCGEventLeftMouseDown) (Z.lor (2 ^ kCGEventLeftMouseUp)
        (Z.lor (2 ^ kCGEventRightMouseDown) (Z.lor (2 ^ kCGEventRightMouseUp)
        (Z.lor (2 ^ kCGEventMouseMoved) (Z.lor (2 ^ kCGEventScrollWheel) 0)))))))
  /\ forall i : Z,
       Z.testbit eventMask i = true
       <-> i = kCGEventKeyDown \/ i = kCGEventKeyUp
           \/ i = kCGEventLeftMouseDown \/ i = kCGEventLeftMouseUp
           \/ i = kCGEventRightMouseDown \/ i = kCGEventRightMouseUp
           \/ i = kCGEventMouseMoved \/ i = kCGEventScrollWheel.
Proof.
  split; [|split].
  - unfold InitializeEventTap, bind, call. simpl.
    match goal with |- context [is_set ?p] => destruct (is_set p) end; reflexivity.
  - now apply eventMask_fold.
  - intros i. rewrite eventMask_bits by assumption. simpl. intuition congruence.
Qed.

(** C4. For a non-NULL [point]: when [CGEventCreate] succeeds,
    [GetCurrentMousePos] returns 0 and [*point] holds the location the
    framework reports for that event; when [CGEventCreate] fails it returns
    -1. With a NULL [point] it returns -1. *)
Theorem GetCurrentMousePos_result `{Framework} (point : ptr) (w : World)
    (Hpoint : point <> NULL) :
  let event := fst (perform (CGEventCreate NULL) (os w)) in
  let s := snd (perform (CGEventCreate NULL) (os w)) in
  let location := fst (perform (CGEventGetLocation event) s) in
  (event <> NULL ->
     fst (GetCurrentMousePos point w) = 0
     /\ heap (snd (GetCurrentMousePos point w)) = <[point := location]> (heap w)
     /\ heap (snd (GetCurrentMousePos point w)) !! point = Some location)
  /\ (event = NULL -> fst (GetCurrentMousePos point w) = -1)
  /\ fst (GetCurrentMousePos NULL w) = -1.
Proof.
  cbv zeta. unfold GetCurrentMousePos.
  rewrite (is_set_true point Hpoint). unfold bind, call. cbn [negb fst snd os].
  set (event := fst (perform (CGEventCreate NULL) (os w))).
  split; [|split; [|reflexivity]].
  - intros Hevent. rewrite (is_set_true event Hevent).
    unfold store, ret. cbn [fst snd heap].
    split; [reflexivity|]. split; [reflexivity|]. apply lookup_insert_eq.
  - intros ->. reflexivity.
Qed.

(** C5. For a non-NULL event, [GetKeyCodeFromEvent] asks the framework once,
    for the field [kCGKeyboardEventKeycode] of that event, and returns the
    value reported reduced to its low 16 bits. *)
Theorem GetKeyCodeFromEvent_truncates `{Framework} (event : ptr) (w : World)
    (Hevent : event <> NULL) :
  let v := fst (perform (CGEventGetIntegerValueField event kCGKeyboardEventKeycode)
                  (os w)) in
  let r := fst (GetKeyCodeFromEvent event w) in
  r = v mod 2 ^ 16
  /\ r = Z.land v 65535
  /\ 0 <= r < 65536
  /\ (forall i, 0 <= i < 16 -> Z.testbit r i = Z.testbit v i)
  /\ trace (snd (GetKeyCodeFromEvent event w))
     = trace w ++ [CGEventGetIntegerValueField event kCGKeyboardEventKeycode].
Proof.
  cbv zeta. unfold GetKeyCodeFromEvent.
  rewrite (is_set_true event Hevent). unfold bind, call, ret.
  cbn [fst snd trace].
  split; [reflexivity|]. split; [apply to_uint16_land|].
  split; [apply to_uint16_range|]. split; [|reflexivity].
  intros i Hi. unfold to_uint16. apply Z.mod_pow2_bits_low. lia.
Qed.

(** C6. For a non-NULL tap, [EnableEventTap] makes exactly one framework
    call, [CGEventTapEnable] on that tap with the flag it was given, and does
    nothing else; so in any framework where [CGEventTapEnable] sets the tap's
    enabled state to its flag, the tap ends up enabled for [true] and
    disabled for [false]. *)
Theorem EnableEventTap_forwards `{Framework} (tap : ptr) (enable : bool) (w : World)
    (Htap : tap <> NULL) :
  let w' := snd (EnableEventTap tap enable w) in
  trace w' = trace w ++ [CGEventTapEnable tap enable]
  /\ os w' = snd (perform (CGEventTapEnable tap enable) (os w))
  /\ heap w' = heap w
  /\ stdout w' = stdout w
  /\ forall is_enabled : OSState -> ptr -> bool,
       (forall s t b, is_enabled (snd (perform (CGEventTapEnable t b) s)) t = b) ->
       is_enabled (os w') tap = enable.
Proof.
  cbv zeta. unfold EnableEventTap. rewrite (is_set_true tap Htap).
  unfold call. cbn [fst snd os trace heap stdout].
  repeat split. intros is_enabled Hcontract. apply Hcontract.
Qed.

(** C7. For every timeout, [RunCurrentRunLoopWithTimeout] makes exactly one
    framework call, [CFRunLoopRunInMode] in the default mode with that
    timeout and with return-after-source-handled set, and returns the result
    code of that call as it is. *)
Theorem RunCurrentRunLoopWithTimeout_forwards `{Framework} (seconds : double)
    (w : World) :
  let c := CFRunLoopRunInMode kCFRunLoopDefaultMode seconds true in
  let w' := snd (RunCurrentRunLoopWithTimeout seconds w) in
  fst (RunCurrentRunLoopWithTimeout seconds w) = fst (perform c (os w))
  /\ trace w' = trace w ++ [c]
  /\ os w' = snd (perform c (os w))
  /\ heap w' = heap w
  /\ stdout w' = stdout w.
Proof. repeat split. Qed.

(** C8. With a NULL event, [GetKeyCodeFromEvent] returns 0 without asking the
    framework; a non-NULL event whose key-code field reads 0 gives the very
    same return value, so the caller cannot tell the two apart. *)
Theorem GetKeyCodeFromEvent_null_ambiguous `{Framework} (event : ptr) (w : World)
    (Hevent : event <> NULL)
    (Hzero : fst (perform (CGEventGetIntegerValueField event kCGKeyboardEventKeycode)
                    (os w)) = 0) :
  GetKeyCodeFromEvent NULL w = (0, w)
  /\ fst (GetKeyCodeFromEvent event w) = 0
  /\ fst (GetKeyCodeFromEvent event w) = fst (GetKeyCodeFromEvent NULL w).
Proof.
  assert (Hgenuine : fst (GetKeyCodeFromEvent event w) = 0).
  { unfold GetKeyCodeFromEvent. rewrite (is_set_true event Hevent).
    unfold bind, call, ret. cbn [fst snd]. rewrite Hzero. reflexivity. }
  split; [reflexivity|]. split; [assumption|]. rewrite Hgenuine. reflexivity.
Qed.

(** C9. [GetCurrentMousePos] returns -1 exactly when [point] is NULL or
    [CGEventCreate] fails, and 0 otherwise; whenever it returns -1 the memory
    is what it was before the call, so memory differs only after a return
    of 0. With a NULL [point] nothing at all happens. *)
Theorem GetCurrentMousePos_failure_frame `{Framework} (point : ptr) (w : World) :
  let event := fst (perform (CGEventCreate NULL) (os w)) in
  let r := fst (GetCurrentMousePos point w) in
  let w' := snd (GetCurrentMousePos point w) in
  ((point = NULL \/ event = NULL) <-> r = -1)
  /\ (r = -1 -> heap w' = heap w)
  /\ (heap w' <> heap w -> r = 0)
  /\ (r = 0 \/ r = -1)
  /\ (point = NULL -> w' = w).
Proof.
  cbv zeta. unfold GetCurrentMousePos.
  destruct (is_set point) eqn:Hpoint; cbn [negb].
  - assert (Hnn : point <> NULL) by (intros ->; discriminate Hpoint).
    unfold bind, call. cbn [fst snd os].
    set (event := fst (perform (CGEventCreate NULL) (os w))).
    destruct (is_set event) eqn:Hevent.
    + assert (Hev : event <> NULL).
      { intros Heq. rewrite Heq in Hevent. discriminate Hevent. }
      unfold store, ret. cbn [fst snd heap].
      repeat split; try (intros; discriminate); tauto.
    + apply is_set_false in Hevent. unfold ret. cbn [fst snd heap].
      repeat split; try tauto; try (intros Hne; now contradiction Hne).
  - apply is_set_false in Hpoint. unfold ret. cbn [fst snd].
    repeat split; try tauto; try (intros Hne; now contradiction Hne).
Qed.

(** The pairwise inequalities behind [distinct tapped_types]. *)
Lemma distinct_cons (k : Z) (l : list Z) :
  distinct (k :: l) = true -> ~ In k l /\ distinct l = true.
Proof.
  simpl. intros Hd. apply andb_true_iff in Hd as [Hk Hl]. split; [|assumption].
  intros Hin. rewrite forallb_forall in Hk. specialize (Hk k Hin).
  rewrite Z.eqb_refl in Hk. discriminate Hk.
Qed.

Lemma prints_one (f g : string) (a : list printf_arg) :
  prints f [Printf g a] = String.eqb g f.
Proof. unfold prints. simpl. apply orb_false_r. Qed.

(** C10. [PrintEventInfo] first prints the event type as a number, whatever
    the event. After it, it prints the key code exactly for key-down and
    key-up events, and the mouse location exactly for mouse-moved and
    left/right button down/up events; for a scroll-wheel event it prints
    nothing more (the event-type constants being pairwise distinct). *)
Theorem PrintEventInfo_output `{Framework} `{EventTypes}
    (type : CGEventType) (event : ptr) (w : World)
    (Hdistinct : distinct tapped_types = true) :
  let v := fst (perform (CGEventGetIntegerValueField event kCGKeyboardEventKeycode)
                  (os w)) in
  let location := fst (perform (CGEventGetLocation event) (os w)) in
  let is_key := type = kCGEventKeyDown \/ type = kCGEventKeyUp in
  let is_mouse :=
    type = kCGEventMouseMoved
    \/ type = kCGEventLeftMouseDown \/ type = kCGEventLeftMouseUp
    \/ type = kCGEventRightMouseDown \/ type = kCGEventRightMouseUp in
  exists rest : list printf_call,
    stdout (snd (PrintEventInfo type event w))
    = stdout w ++ Printf ("Event type: %d" ++ nl) [ArgInt (to_int type)] :: rest
    /\ (0 <= type < 2 ^ 31 -> to_int type = type)
    /\ (prints ("Key code: %d" ++ nl) rest = true <-> is_key)
    /\ (prints ("Mouse location: (%f, %f)" ++ nl) rest = true <-> is_mouse)
    /\ (is_key -> rest = [Printf ("Key code: %d" ++ nl) [ArgInt (to_uint16 v)]])
    /\ (is_mouse ->
        rest = [Printf ("Mouse location: (%f, %f)" ++ nl)
                  [ArgDouble (x location); ArgDouble (y location)]])
    /\ (type = kCGEventScrollWheel -> rest = []).
Proof.
  cbv zeta.
  unfold tapped_types in Hdistinct.
  repeat (apply distinct_cons in Hdistinct as [? Hdistinct]).
  repeat match goal with Hn : ~ In _ _ |- _ => simpl in Hn end.
  unfold PrintEventInfo, bind, printf. cbn [fst snd os stdout].
  destruct ((type =? kCGEventKeyDown) || (type =? kCGEventKeyUp)) eqn:Hkey.
  - apply orb_true_iff in Hkey. rewrite !Z.eqb_eq in Hkey.
    unfold call. cbn [fst snd os stdout].
    rewrite to_int_to_uint16.
    eexists. split; [rewrite <- app_assoc; reflexivity|].
    split; [apply to_int_nonneg_small|]. rewrite !prints_one.
    split; [split; [intros _; exact Hkey | reflexivity]|].
    split; [split; [discriminate | intros Hm; exfalso; intuition congruence]|].
    split; [reflexivity|].
    split; intros; exfalso; intuition congruence.
  - apply orb_false_iff in Hkey. rewrite !Z.eqb_neq in Hkey.
    destruct ((type =? kCGEventMouseMoved) || (type =? kCGEventLeftMouseDown)
              || (type =? kCGEventLeftMouseUp) || (type =? kCGEventRightMouseDown)
              || (type =? kCGEventRightMouseUp)) eqn:Hmouse.
    + rewrite !orb_true_iff, !Z.eqb_eq in Hmouse.
      unfold call. cbn [fst snd os stdout].
      eexists. split; [rewrite <- app_assoc; reflexivity|].
      split; [apply to_int_nonneg_small|]. rewrite !prints_one.
      split; [split; [discriminate | intros Hk; exfalso; tauto]|].
      split; [split; [intros _; tauto | reflexivity]|].
      split; [intros Hk; exfalso; tauto|].
      split; [reflexivity|].
      intros; exfalso; intuition congruence.
    + rewrite !orb_false_iff, !Z.eqb_neq in Hmouse.
      unfold ret. cbn [fst snd os stdout].
      exists []. split; [reflexivity|].
      split; [apply to_int_nonneg_small|].
      split; [split; [discriminate | intros Hk; exfalso; tauto]|].
      split; [split; [discriminate | intros Hm; exfalso; tauto]|].
      split; [intros Hk; exfalso; tauto|].
      split; [intros Hm; exfalso; tauto | reflexivity].
Qed.

(** ** The theorems at concrete inputs, on the simulated framework *)

Lemma sim_enable_contract (s : Sim.state) (t : ptr) (b : bool) :
  Sim.tap_enabled (snd (@perform Sim.framework (CGEventTapEnable t b) s)) t = b.
Proof. unfold Sim.tap_enabled. simpl. now rewrite Z.eqb_refl. Qed.

Lemma InitializeEventTap_request_witness :
  forallb shift_ok (@tapped_types Sim.apple) = true
  /\ trace (snd (@InitializeEventTap Sim.framework Sim.apple 500 600
                   (Sim.world true true)))
     = [CGEventTapCreate kCGSessionEventTap kCGHeadInsertEventTap
          kCGEventTapOptionDefault 4197438 500 600]
  /\ (Z.testbit (@eventMask Sim.apple) 22 = true
      <-> 22 = 10 \/ 22 = 11 \/ 22 = 1 \/ 22 = 2 \/ 22 = 3 \/ 22 = 4 \/ 22 = 5
          \/ 22 = 22).
Proof.
  assert (Hok : forallb shift_ok (@tapped_types Sim.apple) = true) by reflexivity.
  split; [exact Hok|].
  pose proof (@InitializeEventTap_request Sim.framework Sim.apple 500 600
                (Sim.world true true) Hok) as [Htrace [_ Hbits]].
  split; [exact Htrace | exact (Hbits 22)].
Defined.

Lemma GetCurrentMousePos_result_witness :
  64 <> NULL
  /\ fst (@GetCurrentMousePos Sim.framework 64 (Sim.world true true)) = 0
  /\ heap (snd (@GetCurrentMousePos Sim.framework 64 (Sim.world true true))) !! 64
     = Some Sim.at_3_half
  /\ fst (@GetCurrentMousePos Sim.framework 64 (Sim.world true false)) = -1.
Proof.
  assert (Hpoint : 64 <> NULL) by (unfold NULL; lia).
  split; [exact Hpoint|].
  pose proof (@GetCurrentMousePos_result Sim.framework 64 (Sim.world true true)
                Hpoint) as [Hsuccess _].
  pose proof (@GetCurrentMousePos_result Sim.framework 64 (Sim.world true false)
                Hpoint) as [_ [Hfailure _]].
  assert (Hevent : 4096 <> NULL) by (unfold NULL; lia).
  destruct (Hsuccess Hevent) as [Hr [_ Hcell]].
  split; [exact Hr|]. split; [exact Hcell | exact (Hfailure eq_refl)].
Defined.

Lemma GetKeyCodeFromEvent_truncates_witness :
  7 <> NULL
  /\ fst (@GetKeyCodeFromEvent Sim.framework 7 (Sim.world true true))
     = 70000 mod 2 ^ 16.
Proof.
  assert (Hevent : 7 <> NULL) by (unfold NULL; lia).
  split; [exact Hevent|].
  exact (proj1 (@GetKeyCodeFromEvent_truncates Sim.framework 7 (Sim.world true true)
                  Hevent)).
Defined.

Lemma EnableEventTap_forwards_witness :
  4096 <> NULL
  /\ Sim.tap_enabled
       (os (snd (@EnableEventTap Sim.framework 4096 true (Sim.world true true))))
       4096 = true
  /\ Sim.tap_enabled
       (os (snd (@EnableEventTap Sim.framework 4096 false (Sim.world true true))))
       4096 = false.
Proof.
  assert (Htap : 4096 <> NULL) by (unfold NULL; lia).
  split; [exact Htap|]. split.
  - apply (@EnableEventTap_forwards Sim.framework 4096 true (Sim.world true true)
             Htap).
    exact sim_enable_contract.
  - apply (@EnableEventTap_forwards Sim.framework 4096 false (Sim.world true true)
             Htap).
    exact sim_enable_contract.
Defined.

Lemma GetKeyCodeFromEvent_null_ambiguous_witness :
  8 <> NULL
  /\ fst (@perform Sim.framework
            (CGEventGetIntegerValueField 8 kCGKeyboardEventKeycode)
            (os (Sim.world true true))) = 0
  /\ fst (@GetKeyCodeFromEvent Sim.framework 8 (Sim.world true true))
     = fst (@GetKeyCodeFromEvent Sim.framework NULL (Sim.world true true)).
Proof.
  assert (Hevent : 8 <> NULL) by (unfold NULL; lia).
  split; [exact Hevent|]. split; [reflexivity|].
  apply (@GetKeyCodeFromEvent_null_ambiguous Sim.framework 8 (Sim.world true true)
           Hevent eq_refl).
Defined.

Lemma PrintEventInfo_output_witness :
  distinct (@tapped_types Sim.apple) = true
  /\ stdout (snd (@PrintEventInfo Sim.framework Sim.apple 22 7 (Sim.world true true)))
     = [Printf ("Event type: %d" ++ nl) [ArgInt 22]]
  /\ stdout (snd (@PrintEventInfo Sim.framework Sim.apple 10 7 (Sim.world true true)))
     = [Printf ("Event type: %d" ++ nl) [ArgInt 10];
        Printf ("Key code: %d" ++ nl) [ArgInt 4464]].
Proof.
  assert (Hdistinct : distinct (@tapped_types Sim.apple) = true) by reflexivity.
  split; [exact Hdistinct|]. split.
  - destruct (@PrintEventInfo_output Sim.framework Sim.apple 22 7
                (Sim.world true true) Hdistinct)
      as [rest [Hout [_ [_ [_ [_ [_ Hscroll]]]]]]].
    rewrite Hout, (Hscroll eq_refl). reflexivity.
  - destruct (@PrintEventInfo_output Sim.framework Sim.apple 10 7
                (Sim.world true true) Hdistinct)
      as [rest [Hout [_ [_ [_ [Hkey _]]]]]].
    rewrite Hout, (Hkey (or_introl eq_refl)). reflexivity.
Defined.

(** ** Further properties of the shim *)

(** *** The calls each function makes *)

Lemma issued_app `{Framework} (w w' : World) (l : list os_call) :
  trace w' = trace w ++ l -> issued w w' = l.
Proof. intros Ht. unfold issued. rewrite Ht. apply drop_app_length. Qed.

Lemma is_set_eqb (p : ptr) : is_set p = true -> (p =? NULL) = false.
Proof. unfold is_set. intros Hp. now apply negb_true_iff in Hp. Qed.

Section Calls.
Context `{Framework}.

(** Sequencing: the second computation runs on the result and the world of
    the first. *)
Lemma bind_run {A B} (m : Shim A) (k : A -> Shim B) (w : World) :
  bind m k w = k (fst (m w)) (snd (m w)).
Proof. unfold bind. now destruct (m w). Qed.

Lemma AddEventTapToCurrentRunLoop_trace (tap : ptr) (w : World) :
  let mk := CFMachPortCreateRunLoopSource kCFAllocatorDefault tap 0 in
  let source := fst (perform mk (os w)) in
  let rl := fst (perform CFRunLoopGetCurrent (snd (perform mk (os w)))) in
  trace (snd (AddEventTapToCurrentRunLoop tap w))
  = trace w
    ++ (if is_set tap then
          mk :: (if is_set source then
                   [CFRunLoopGetCurrent;
                    CFRunLoopAddSource rl source kCFRunLoopDefaultMode;
                    CFRelease source]
                 else [])
        else []).
Proof.
  cbv zeta. unfold AddEventTapToCurrentRunLoop.
  destruct (is_set tap); [|symmetry; apply app_nil_r].
  unfold bind, call. cbn [fst snd os trace].
  match goal with |- context [is_set ?p] => destruct (is_set p) end;
    cbn [fst snd os trace]; rewrite <- ?app_assoc; reflexivity.
Qed.

Lemma CleanupEventTap_trace (tap : ptr) (w : World) :
  trace (snd (CleanupEventTap tap w))
  = trace w ++ (if is_set tap then [CFRelease tap] else []).
Proof.
  unfold CleanupEventTap. destruct (is_set tap); [reflexivity|].
  symmetry. apply app_nil_r.
Qed.

Lemma EnableEventTap_trace (tap : ptr) (enable : bool) (w : World) :
  trace (snd (EnableEventTap tap enable w))
  = trace w ++ (if is_set tap then [CGEventTapEnable tap enable] else []).
Proof.
  unfold EnableEventTap. destruct (is_set tap); [reflexivity|].
  symmetry. apply app_nil_r.
Qed.

Lemma GetKeyCodeFromEvent_trace (event : ptr) (w : World) :
  trace (snd (GetKeyCodeFromEvent event w))
  = trace w
    ++ (if is_set event
        then [CGEventGetIntegerValueField event kCGKeyboardEventKeycode]
        else []).
Proof.
  unfold GetKeyCodeFromEvent. destruct (is_set event); [reflexivity|].
  symmetry. apply app_nil_r.
Qed.

Lemma GetCurrentMousePos_trace (point : ptr) (w : World) :
  let event := fst (perform (CGEventCreate NULL) (os w)) in
  trace (snd (GetCurrentMousePos point w))
  = trace w
    ++ (if is_set point then
          CGEventCreate NULL
          :: (if is_set event then [CGEventGetLocation event; CFRelease event]
              else [])
        else []).
Proof.
  cbv zeta. unfold GetCurrentMousePos.
  destruct (is_set point); cbn [negb]; [|symmetry; apply app_nil_r].
  unfold bind, call, store, ret. cbn [fst snd os trace].
  match goal with |- context [is_set ?p] => destruct (is_set p) end;
    cbn [fst snd os trace]; rewrite <- ?app_assoc; reflexivity.
Qed.

End Calls.

Section MoreCalls.
Context `{Framework} `{EventTypes}.

Lemma InitializeEventTap_trace (callback userData : ptr) (w : World) :
  trace (snd (InitializeEventTap callback userData w))
  = trace w ++ [CGEventTapCreate kCGSessionEventTap kCGHeadInsertEventTap
                  kCGEventTapOptionDefault eventMask callback userData].
Proof.
  unfold InitializeEventTap, bind, call. cbn [fst snd os trace].
  match goal with |- context [is_set ?p] => destruct (is_set p) end; reflexivity.
Qed.

(** What [InitializeEventTap] returns is what [CGEventTapCreate] returned. *)
Lemma InitializeEventTap_fst (callback userData : ptr) (w : World) :
  fst (InitializeEventTap callback userData w)
  = fst (perform (CGEventTapCreate kCGSessionEventTap kCGHeadInsertEventTap
                    kCGEventTapOptionDefault eventMask callback userData) (os w)).
Proof.
  unfold InitializeEventTap, bind, call. cbn [fst snd os].
  match goal with |- context [is_set ?p] => destruct (is_set p) eqn:Hp end;
    [reflexivity|].
  apply is_set_false in Hp. now rewrite Hp.
Qed.

Lemma PrintEventInfo_trace (type : CGEventType) (event : ptr) (w : World) :
  trace (snd (PrintEventInfo type event w))
  = trace w
    ++ (if (type =? kCGEventKeyDown) || (type =? kCGEventKeyUp) then
          [CGEventGetIntegerValueField event kCGKeyboardEventKeycode]
        else if (type =? kCGEventMouseMoved)
                || (type =? kCGEventLeftMouseDown) || (type =? kCGEventLeftMouseUp)
                || (type =? kCGEventRightMouseDown) || (type =? kCGEventRightMouseUp)
        then [CGEventGetLocation event]
        else []).
Proof.
  unfold PrintEventInfo, bind, printf. cbn [fst snd os trace].
  destruct ((type =? kCGEventKeyDown) || (type =? kCGEventKeyUp)); [reflexivity|].
  match goal with |- context [if ?b then _ else _] => destruct b end;
    [reflexivity | symmetry; apply app_nil_r].
Qed.

End MoreCalls.

(** *** Run-loop installation and clean-up *)


(** X2. For a non-NULL tap whose run-loop source cannot be created (the
    framework returns NULL), [AddEventTapToCurrentRunLoop] stops after that
    one call: nothing is added to the run loop, nothing is released, and the
    caller gets no error indication (the function returns nothing). *)
Theorem AddEventTapToCurrentRunLoop_no_source `{Framework} (tap : ptr) (w : World)
    (Htap : tap <> NULL)
    (Hsource : fst (perform (CFMachPortCreateRunLoopSource kCFAllocatorDefault tap 0)
                      (os w)) = NULL) :
  let mk := CFMachPortCreateRunLoopSource kCFAllocatorDefault tap 0 in
  AddEventTapToCurrentRunLoop tap w
  = (tt, mkWorld (snd (perform mk (os w))) (trace w ++ [mk]) (heap w) (stdout w)).
Proof.
  cbv zeta. unfold AddEventTapToCurrentRunLoop. rewrite (is_set_true tap Htap).
  unfold bind, call. cbn [fst snd os]. rewrite Hsource. reflexivity.
Qed.

(** X3. For a non-NULL tap, [CleanupEventTap] makes exactly one call,
    [CFRelease] of that tap. The shim keeps no record of it: cleaning the same
    handle up a second time releases it a second time. *)
Theorem CleanupEventTap_releases `{Framework} (tap : ptr) (w : World)
    (Htap : tap <> NULL) :
  snd (CleanupEventTap tap w)
  = mkWorld (snd (perform (CFRelease tap) (os w))) (trace w ++ [CFRelease tap])
      (heap w) (stdout w)
  /\ trace (snd ((CleanupEventTap tap ;; CleanupEventTap tap) w))
     = trace w ++ [CFRelease tap; CFRelease tap].
Proof.
  unfold bind, CleanupEventTap. rewrite (is_set_true tap Htap).
  unfold call. cbn [fst snd os trace]. split; [reflexivity|].
  now rewrite <- app_assoc.
Qed.

(** X4. No function of the shim ever passes NULL to [CFRelease], whatever
    its arguments and whatever the framework answers: every release is
    guarded by a null check on the handle released. *)
Theorem never_releases_null `{Framework} `{EventTypes} (w : World) (p q : ptr)
    (b : bool) (seconds : double) (type : CGEventType) :
  existsb releases_null (issued w (snd (InitializeEventTap p q w))) = false
  /\ existsb releases_null (issued w (snd (EnableEventTap p b w))) = false
  /\ existsb releases_null (issued w (snd (AddEventTapToCurrentRunLoop p w))) = false
  /\ existsb releases_null (issued w (snd (CleanupEventTap p w))) = false
  /\ existsb releases_null (issued w (snd (RunCurrentRunLoopWithTimeout seconds w)))
     = false
  /\ existsb releases_null (issued w (snd (GetKeyCodeFromEvent p w))) = false
  /\ existsb releases_null (issued w (snd (GetCurrentMousePos p w))) = false
  /\ existsb releases_null (issued w (snd (PrintEventInfo type p w))) = false.
Proof.
  repeat split.
  - now rewrite (issued_app _ _ _ (InitializeEventTap_trace p q w)).
  - rewrite (issued_app _ _ _ (EnableEventTap_trace p b w)).
    now destruct (is_set p).
  - rewrite (issued_app _ _ _ (AddEventTapToCurrentRunLoop_trace p w)).
    destruct (is_set p); [|reflexivity].
    match goal with |- context [is_set ?s] => destruct (is_set s) eqn:Hs end;
      [|reflexivity].
    cbn [existsb releases_null]. now rewrite (is_set_eqb _ Hs).
  - rewrite (issued_app _ _ _ (CleanupEventTap_trace p w)).
    destruct (is_set p) eqn:Hp; [|reflexivity].
    cbn [existsb releases_null]. now rewrite (is_set_eqb _ Hp).
  - now rewrite (issued_app w _ [CFRunLoopRunInMode kCFRunLoopDefaultMode seconds true]).
  - rewrite (issued_app _ _ _ (GetKeyCodeFromEvent_trace p w)).
    now destruct (is_set p).
  - rewrite (issued_app _ _ _ (GetCurrentMousePos_trace p w)).
    destruct (is_set p); [|reflexivity].
    match goal with |- context [is_set ?s] => destruct (is_set s) eqn:Hs end;
      [|reflexivity].
    cbn [existsb releases_null]. now rewrite (is_set_eqb _ Hs).
  - rewrite (issued_app _ _ _ (PrintEventInfo_trace type p w)).
    destruct ((type =? kCGEventKeyDown) || (type =? kCGEventKeyUp)); [reflexivity|].
    match goal with |- context [if ?c then _ else _] => destruct c end; reflexivity.
Qed.

(** *** The mouse position *)

(** X5. With a non-NULL [point], [GetCurrentMousePos] creates one event from
    the NULL source; when that succeeds it reads the location of that very
    event and then releases that very event, once; when it fails it makes no
    further call. *)
Theorem GetCurrentMousePos_calls `{Framework} (point : ptr) (w : World)
    (Hpoint : point <> NULL) :
  let event := fst (perform (CGEventCreate NULL) (os w)) in
  let w' := snd (GetCurrentMousePos point w) in
  (event <> NULL ->
   trace w' = trace w ++ [CGEventCreate NULL; CGEventGetLocation event;
                          CFRelease event])
  /\ (event = NULL -> trace w' = trace w ++ [CGEventCreate NULL]).
Proof.
  cbv zeta. rewrite GetCurrentMousePos_trace, (is_set_true point Hpoint).
  split.
  - intros Hevent. now rewrite (is_set_true _ Hevent).
  - intros Hevent. now rewrite Hevent.
Qed.


(** X7. [GetKeyCodeFromEvent] and [GetCurrentMousePos] never hand a NULL event
    to an event accessor of the framework: the first checks its argument,
    the second checks the event it created. *)
Theorem accessors_get_real_events `{Framework} (p : ptr) (w : World) :
  existsb reads_null_event (issued w (snd (GetKeyCodeFromEvent p w))) = false
  /\ existsb reads_null_event (issued w (snd (GetCurrentMousePos p w))) = false.
Proof.
  split.
  - rewrite (issued_app _ _ _ (GetKeyCodeFromEvent_trace p w)).
    destruct (is_set p) eqn:Hp; [|reflexivity].
    cbn [existsb reads_null_event]. now rewrite (is_set_eqb _ Hp).
  - rewrite (issued_app _ _ _ (GetCurrentMousePos_trace p w)).
    destruct (is_set p); [|reflexivity].
    match goal with |- context [is_set ?s] => destruct (is_set s) eqn:Hs end;
      [|reflexivity].
    cbn [existsb reads_null_event]. now rewrite (is_set_eqb _ Hs).
Qed.

(** *** Creating the tap, and what follows *)

(** X8. [InitializeEventTap] prints the line "Failed to create event tap."
    exactly when it returns NULL, and prints nothing when it returns a
    handle. It never writes to memory. *)
Theorem InitializeEventTap_diagnostic `{Framework} `{EventTypes}
    (callback userData : ptr) (w : World) :
  let r := fst (InitializeEventTap callback userData w) in
  let w' := snd (InitializeEventTap callback userData w) in
  (r = NULL ->
   stdout w' = stdout w ++ [Printf ("Failed to create event tap." ++ nl) []])
  /\ (r <> NULL -> stdout w' = stdout w)
  /\ heap w' = heap w.
Proof.
  cbv zeta. unfold InitializeEventTap, bind, call. cbn [fst snd os].
  match goal with |- context [is_set ?p] => destruct (is_set p) eqn:Hp end;
    cbn [negb].
  - unfold ret. cbn [fst snd stdout heap]. repeat split.
    intros Hnull. rewrite Hnull in Hp. discriminate Hp.
  - unfold printf, ret. cbn [fst snd stdout heap]. repeat split.
    intros Hr. now contradiction Hr.
Qed.

(** X9. When the tap cannot be created, handing the NULL result on to
    [AddEventTapToCurrentRunLoop], [EnableEventTap] and [CleanupEventTap] is
    harmless: the three do nothing, so the whole sequence leaves the world
    exactly as [InitializeEventTap] alone left it. *)
Theorem failed_setup_is_inert `{Framework} `{EventTypes}
    (callback userData : ptr) (enable : bool) (w : World)
    (Hfailed : fst (InitializeEventTap callback userData w) = NULL) :
  (tap <- InitializeEventTap callback userData ;;
   AddEventTapToCurrentRunLoop tap ;;
   EnableEventTap tap enable ;;
   CleanupEventTap tap) w
  = (tt, snd (InitializeEventTap callback userData w)).
Proof.
  unfold bind at 1.
  destruct (InitializeEventTap callback userData w) as [tap w1].
  cbn [fst snd] in *. subst tap. reflexivity.
Qed.

(** X10. When the tap is created, creating, enabling and cleaning up act on
    one and the same handle: the calls made are [CGEventTapCreate], then
    [CGEventTapEnable] on the handle it returned with the caller's flag, then
    [CFRelease] of that handle. *)
Theorem setup_enable_cleanup `{Framework} `{EventTypes}
    (callback userData : ptr) (enable : bool) (w : World)
    (Hcreated : fst (InitializeEventTap callback userData w) <> NULL) :
  let create := CGEventTapCreate kCGSessionEventTap kCGHeadInsertEventTap
                  kCGEventTapOptionDefault eventMask callback userData in
  let tap := fst (perform create (os w)) in
  fst (InitializeEventTap callback userData w) = tap
  /\ trace (snd ((tap <- InitializeEventTap callback userData ;;
                  EnableEventTap tap enable ;;
                  CleanupEventTap tap) w))
     = trace w ++ [create; CGEventTapEnable tap enable; CFRelease tap].
Proof.
  cbv zeta. rewrite InitializeEventTap_fst in Hcreated.
  split; [apply InitializeEventTap_fst|].
  rewrite !bind_run, CleanupEventTap_trace, EnableEventTap_trace,
    InitializeEventTap_trace, InitializeEventTap_fst.
  rewrite (is_set_true _ Hcreated). now rewrite <- !app_assoc.
Qed.

(** *** Printing an event *)

Lemma is_key_true `{EventTypes} (type : CGEventType) :
  type = kCGEventKeyDown \/ type = kCGEventKeyUp ->
  (type =? kCGEventKeyDown) || (type =? kCGEventKeyUp) = true.
Proof.
  intros [-> | ->]; rewrite Z.eqb_refl; [reflexivity | apply orb_true_r].
Qed.

Lemma is_key_false `{EventTypes} (type : CGEventType) :
  ~ (type = kCGEventKeyDown \/ type = kCGEventKeyUp) ->
  (type =? kCGEventKeyDown) || (type =? kCGEventKeyUp) = false.
Proof.
  intros Hn. apply orb_false_iff. rewrite !Z.eqb_neq. tauto.
Qed.

(** X11. [PrintEventInfo] does not check its event argument. For a key-down
    or key-up type it asks the framework for the key code of whatever pointer
    it was given, so a NULL event reaches the framework; otherwise, for one
    of the five mouse types it asks for the location of that pointer; for any
    other type it makes no framework call at all. It never writes memory. *)
Theorem PrintEventInfo_calls `{Framework} `{EventTypes}
    (type : CGEventType) (event : ptr) (w : World) :
  let is_key := type = kCGEventKeyDown \/ type = kCGEventKeyUp in
  let is_mouse :=
    type = kCGEventMouseMoved
    \/ type = kCGEventLeftMouseDown \/ type = kCGEventLeftMouseUp
    \/ type = kCGEventRightMouseDown \/ type = kCGEventRightMouseUp in
  let w' := snd (PrintEventInfo type event w) in
  (is_key ->
   trace w' = trace w ++ [CGEventGetIntegerValueField event kCGKeyboardEventKeycode])
  /\ (is_key -> event = NULL -> existsb reads_null_event (issued w w') = true)
  /\ (~ is_key -> is_mouse -> trace w' = trace w ++ [CGEventGetLocation event])
  /\ (~ is_key -> ~ is_mouse -> trace w' = trace w /\ os w' = os w)
  /\ heap w' = heap w.
Proof.
  cbv zeta. split; [|split; [|split; [|split]]].
  - intros Hkey. now rewrite PrintEventInfo_trace, (is_key_true type Hkey).
  - intros Hkey ->.
    rewrite (issued_app _ _ _ (PrintEventInfo_trace type NULL w)).
    now rewrite (is_key_true type Hkey).
  - intros Hkey Hmouse. rewrite PrintEventInfo_trace, (is_key_false type Hkey).
    rewrite <- !Z.eqb_eq, <- !orb_true_iff, !orb_assoc in Hmouse.
    now rewrite Hmouse.
  - intros Hkey Hmouse. unfold PrintEventInfo, bind, printf.
    cbn [fst snd os trace]. rewrite (is_key_false type Hkey).
    rewrite <- !Z.eqb_eq, <- !orb_true_iff, !orb_assoc in Hmouse.
    apply not_true_is_false in Hmouse. rewrite Hmouse. split; reflexivity.
  - unfold PrintEventInfo, bind, printf, call, ret. cbn [fst snd os heap].
    repeat match goal with |- context [if ?c then _ else _] => destruct c end;
      reflexivity.
Qed.

(** X12. For a key-down or key-up event that is not NULL, the number
    [PrintEventInfo] prints as the key code is the value
    [GetKeyCodeFromEvent] returns for that event in the same world. *)
Theorem PrintEventInfo_prints_GetKeyCodeFromEvent `{Framework} `{EventTypes}
    (type : CGEventType) (event : ptr) (w : World)
    (Hevent : event <> NULL)
    (Hkey : type = kCGEventKeyDown \/ type = kCGEventKeyUp) :
  stdout (snd (PrintEventInfo type event w))
  = stdout w ++ [Printf ("Event type: %d" ++ nl) [ArgInt (to_int type)];
                 Printf ("Key code: %d" ++ nl)
                   [ArgInt (fst (GetKeyCodeFromEvent event w))]].
Proof.
  unfold PrintEventInfo, GetKeyCodeFromEvent.
  rewrite (is_set_true event Hevent).
  unfold bind, printf, call, ret. cbn [fst snd os stdout].
  rewrite (is_key_true type Hkey). cbn [fst snd os stdout].
  now rewrite to_int_to_uint16, <- app_assoc.
Qed.

(** *** What the shim leaves alone *)


(** *** The size of the event mask *)

Lemma lor_lt_pow2 (a b n : Z) :
  0 < n -> 0 <= a < 2 ^ n -> 0 <= b < 2 ^ n -> 0 <= Z.lor a b < 2 ^ n.
Proof.
  intros Hn Ha Hb.
  assert (Hnonneg : 0 <= Z.lor a b) by (apply Z.lor_nonneg; lia).
  split; [assumption|].
  destruct (Z.eq_dec (Z.lor a b) 0) as [Hz|Hz].
  - rewrite Hz. apply Z.pow_pos_nonneg; lia.
  - apply Z.log2_lt_pow2; [lia|].
    rewrite Z.log2_lor by lia.
    assert (Hla : Z.log2 a < n).
    { destruct (Z.eq_dec a 0) as [->|Hna]; [simpl; lia|].
      apply Z.log2_lt_pow2; lia. }
    assert (Hlb : Z.log2 b < n).
    { destruct (Z.eq_dec b 0) as [->|Hnb]; [simpl; lia|].
      apply Z.log2_lt_pow2; lia. }
    lia.
Qed.

Lemma lor_pow2_bound (l : list Z) :
  forallb shift_ok l = true ->
  0 <= fold_right Z.lor 0 (map (fun k => 2 ^ k) l) < 2 ^ 31.
Proof.
  induction l as [|k l IH]; simpl; intros Hl.
  - split; [lia | apply Z.pow_pos_nonneg; lia].
  - apply andb_true_iff in Hl as [Hk Hl]. apply shift_ok_range in Hk.
    apply lor_lt_pow2; [lia | | now apply IH].
    split; [apply Z.pow_nonneg; lia | apply Z.pow_lt_mono_r; lia].
Qed.

Lemma not_in_existsb (k : Z) (l : list Z) : ~ In k l -> existsb (Z.eqb k) l = false.
Proof.
  intros Hk. destruct (existsb (Z.eqb k) l) eqn:He; [|reflexivity].
  apply existsb_exists in He as [j [Hin Hj]]. apply Z.eqb_eq in Hj. now subst.
Qed.

(** Powers of two with different exponents share no bit: or-ing is adding. *)
Lemma lor_pow2_sum (l : list Z) :
  forallb shift_ok l = true -> distinct l = true ->
  fold_right Z.lor 0 (map (fun k => 2 ^ k) l)
  = fold_right Z.add 0 (map (fun k => 2 ^ k) l).
Proof.
  induction l as [|k l IH]; intros Hl Hd; [reflexivity|].
  apply distinct_cons in Hd as [Hk Hd]. simpl in Hl |- *.
  apply andb_true_iff in Hl as [Hr Hl]. apply shift_ok_range in Hr.
  rewrite <- (IH Hl Hd).
  assert (Hdisjoint : Z.land (2 ^ k) (fold_right Z.lor 0 (map (fun k => 2 ^ k) l)) = 0).
  { apply Z.bits_inj'. intros i _.
    rewrite Z.land_spec, Z.bits_0, pow2_bit, lor_pow2_bits by (assumption || lia).
    destruct (Z.eqb_spec i k) as [->|_]; [|reflexivity].
    now rewrite (not_in_existsb k l Hk). }
  now rewrite Z.add_nocarry_lxor, Z.lxor_lor.
Qed.

(** X14. When the eight event-type constants are valid shift amounts and
    pairwise distinct, the mask [InitializeEventTap] passes is the sum of the
    eight powers of two (so exactly eight bits are set), and it lies strictly
    between 0 and 2^31: the [int] arithmetic of the C expression neither
    overflows nor goes negative before the conversion to [CGEventMask]. *)
Theorem eventMask_eight_bits `{EventTypes}
    (Hok : forallb shift_ok tapped_types = true)
    (Hdistinct : distinct tapped_types = true) :
  eventMask
  = 2 ^ kCGEventKeyDown + 2 ^ kCGEventKeyUp
    + 2 ^ kCGEventLeftMouseDown + 2 ^ kCGEventLeftMouseUp
    + 2 ^ kCGEventRightMouseDown + 2 ^ kCGEventRightMouseUp
    + 2 ^ kCGEventMouseMoved + 2 ^ kCGEventScrollWheel
  /\ 0 < eventMask < 2 ^ 31.
Proof.
  pose proof (lor_pow2_bound tapped_types Hok) as Hbound.
  rewrite <- (eventMask_fold Hok) in Hbound.
  assert (Hsum : eventMask = fold_right Z.add 0 (map (fun k => 2 ^ k) tapped_types)).
  { rewrite (eventMask_fold Hok). now apply lor_pow2_sum. }
  simpl in Hsum, Hok.
  repeat (apply andb_true_iff in Hok as [?Hk Hok]).
  repeat match goal with Hs : shift_ok ?k = true |- _ =>
    apply shift_ok_range in Hs;
    assert (0 < 2 ^ k) by (apply Z.pow_pos_nonneg; lia); clear Hs
  end.
  clear Hdistinct Hok. split; [lia|]. split; [lia | apply Hbound].
Qed.

(** *** The further properties at concrete inputs *)


Lemma AddEventTapToCurrentRunLoop_no_source_witness :
  500 <> NULL
  /\ @AddEventTapToCurrentRunLoop Refusing.framework 500 Refusing.world
     = (tt, mkWorld (tt : @OSState Refusing.framework)
              [CFMachPortCreateRunLoopSource kCFAllocatorDefault 500 0] ∅ []).
Proof.
  assert (Htap : 500 <> NULL) by (unfold NULL; lia).
  split; [exact Htap|].
  exact (@AddEventTapToCurrentRunLoop_no_source Refusing.framework 500
           Refusing.world Htap eq_refl).
Defined.

Lemma CleanupEventTap_releases_witness :
  500 <> NULL
  /\ trace (snd ((@CleanupEventTap Sim.framework 500 ;;
                  @CleanupEventTap Sim.framework 500) (Sim.world true true)))
     = [CFRelease 500; CFRelease 500].
Proof.
  assert (Htap : 500 <> NULL) by (unfold NULL; lia).
  split; [exact Htap|].
  exact (proj2 (@CleanupEventTap_releases Sim.framework 500 (Sim.world true true)
                  Htap)).
Defined.

Lemma GetCurrentMousePos_calls_witness :
  64 <> NULL
  /\ trace (snd (@GetCurrentMousePos Sim.framework 64 (Sim.world true true)))
     = [CGEventCreate NULL; CGEventGetLocation 4096; CFRelease 4096]
  /\ trace (snd (@GetCurrentMousePos Sim.framework 64 (Sim.world true false)))
     = [CGEventCreate NULL].
Proof.
  assert (Hpoint : 64 <> NULL) by (unfold NULL; lia).
  assert (Hevent : 4096 <> NULL) by (unfold NULL; lia).
  split; [exact Hpoint|]. split.
  - exact (proj1 (@GetCurrentMousePos_calls Sim.framework 64 (Sim.world true true)
                    Hpoint) Hevent).
  - exact (proj2 (@GetCurrentMousePos_calls Sim.framework 64 (Sim.world true false)
                    Hpoint) eq_refl).
Defined.


Lemma failed_setup_is_inert_witness :
  fst (@InitializeEventTap Sim.framework Sim.apple 500 600 (Sim.world false true))
  = NULL
  /\ trace (snd ((tap <- @InitializeEventTap Sim.framework Sim.apple 500 600 ;;
                  AddEventTapToCurrentRunLoop tap ;;
                  EnableEventTap tap true ;;
                  CleanupEventTap tap) (Sim.world false true)))
     = [CGEventTapCreate kCGSessionEventTap kCGHeadInsertEventTap
          kCGEventTapOptionDefault 4197438 500 600].
Proof.
  split; [reflexivity|].
  rewrite (@failed_setup_is_inert Sim.framework Sim.apple 500 600 true
             (Sim.world false true) eq_refl).
  reflexivity.
Defined.

Lemma setup_enable_cleanup_witness :
  4096 <> NULL
  /\ trace (snd ((tap <- @InitializeEventTap Sim.framework Sim.apple 500 600 ;;
                  EnableEventTap tap true ;;
                  CleanupEventTap tap) (Sim.world true true)))
     = [CGEventTapCreate kCGSessionEventTap kCGHeadInsertEventTap
          kCGEventTapOptionDefault 4197438 500 600;
        CGEventTapEnable 4096 true;
        CFRelease 4096].
Proof.
  assert (Hcreated : 4096 <> NULL) by (unfold NULL; lia).
  split; [exact Hcreated|].
  exact (proj2 (@setup_enable_cleanup Sim.framework Sim.apple 500 600 true
                  (Sim.world true true) Hcreated)).
Defined.

Lemma PrintEventInfo_prints_GetKeyCodeFromEvent_witness :
  7 <> NULL
  /\ (10 = 10 \/ 10 = 11)
  /\ stdout (snd (@PrintEventInfo Sim.framework Sim.apple 10 7 (Sim.world true true)))
     = [Printf ("Event type: %d" ++ nl) [ArgInt 10];
        Printf ("Key code: %d" ++ nl)
          [ArgInt (fst (@GetKeyCodeFromEvent Sim.framework 7 (Sim.world true true)))]].
Proof.
  assert (Hevent : 7 <> NULL) by (unfold NULL; lia).
  assert (Hkey : 10 = 10 \/ 10 = 11) by (left; reflexivity).
  split; [exact Hevent|]. split; [exact Hkey|].
  exact (@PrintEventInfo_prints_GetKeyCodeFromEvent Sim.framework Sim.apple 10 7
           (Sim.world true true) Hevent Hkey).
Defined.

Lemma eventMask_eight_bits_witness :
  forallb shift_ok (@tapped_types Sim.apple) = true
  /\ distinct (@tapped_types Sim.apple) = true
  /\ @eventMask Sim.apple = 1024 + 2048 + 2 + 4 + 8 + 16 + 32 + 4194304.
Proof.
  split; [reflexivity|]. split; [reflexivity|].
  exact (proj1 (@eventMask_eight_bits Sim.apple eq_refl eq_refl)).
Defined.
